(** * request_logging.middleware: a shallow embedding

    The module under study is [request_logging/middleware.py]: two sink
    adapters ([Logger], [ColourLogger]) and the Django middleware
    [LoggingMiddleware] with its two hooks.  Python values are embedded as an
    inductive type, the process-wide [request_logger] as an explicit list of
    the calls it received, and exceptions as the left summand of a sum.

    Conventions of the embedding (Python 3 semantics):
    - a [str] is a [string]; every [ascii] stands for one code point, so the
      embedding covers the code points 0..255;
    - [bytes] are a [list byte];
    - an [int] is a [Z];
    - a [float] is the binary floating-point number it denotes, a
      [spec_float], together with its [repr], which the embedding takes as
      given;
    - a [dict] is an association list in insertion order, its keys pairwise
      distinct;
    - values of other types (Decimal, complex, instances of user classes) are
      outside the embedding. *)

From Stdlib Require Import ZArith Strings.String Strings.Ascii Strings.Byte.
From Stdlib Require Import List Lia DecimalString Floats.SpecFloat.
From stdpp Require Import gmap strings.
Import ListNotations.

Open Scope string_scope.
Open Scope Z_scope.

(** ** Python built-ins the module relies on *)

Module Py.

#[warnings="-register-all"]
Inductive pyval :=
| PyNone
| PyBool (b : bool)
| PyInt (n : Z)
| PyFloat (x : spec_float) (text : string)
| PyStr (s : string)
| PyBytes (b : list byte)
| PyTuple (items : list pyval)
| PyDict (items : list (pyval * pyval)).

(** Characters that cannot be written inside a literal. *)
Definition LF : ascii := "010"%char.
Definition TAB : ascii := "009"%char.
Definition CR : ascii := "013"%char.
Definition ESC : ascii := "027"%char.
Definition DQUOTE : ascii := "034"%char.
Definition SQUOTE : ascii := "039"%char.
Definition BACKSLASH : ascii := "092"%char.

Definition chr (c : ascii) : string := String c EmptyString.

(** [sep.join(parts)] *)
Fixpoint join (sep : string) (parts : list string) : string :=
  match parts with
  | [] => EmptyString
  | [p] => p
  | p :: rest => p +:+ sep +:+ join sep rest
  end.

(** [c in s] for a one-character [c]. *)
Fixpoint contains (c : ascii) (s : string) : bool :=
  match s with
  | EmptyString => false
  | String c' s' => Ascii.eqb c c' || contains c s'
  end.

Definition hexdigit (n : N) : ascii :=
  match String.get (N.to_nat n) "0123456789abcdef" with
  | Some c => c
  | None => "0"%char
  end.

(** The escape [\xHH] of CPython's [repr], lower-case digits. *)
Definition hex_escape (n : N) : string :=
  String BACKSLASH (String "x" (String (hexdigit (n / 16)) (chr (hexdigit (n mod 16))))).

(** CPython picks the single quote unless the text holds a single quote and
    no double quote. *)
Definition pick_quote (s : string) : ascii :=
  if contains SQUOTE s && negb (contains DQUOTE s) then DQUOTE else SQUOTE.

(** One unit of [repr(bytes)]: the quote and the backslash are escaped, TAB,
    LF and CR have their letter escapes, every other unit below the space
    or from 0x7f on is a hex escape. *)
Definition escape_byte (quote : ascii) (c : ascii) : string :=
  let n := N_of_ascii c in
  if Ascii.eqb c quote || Ascii.eqb c BACKSLASH then String BACKSLASH (chr c)
  else if Ascii.eqb c TAB then String BACKSLASH "t"
  else if Ascii.eqb c LF then String BACKSLASH "n"
  else if Ascii.eqb c CR then String BACKSLASH "r"
  else if (n <? 32)%N || (127 <=? n)%N then hex_escape n
  else chr c.

(** [str.isprintable] on the code points 0..255: controls, the no-break
    space U+00A0 and the soft hyphen U+00AD are not printable. *)
Definition isprintable (n : N) : bool :=
  negb ((n <? 32)%N || ((127 <=? n)%N && (n <=? 160)%N) || (n =? 173)%N).

(** One code point of [repr(str)]. *)
Definition escape_char (quote : ascii) (c : ascii) : string :=
  let n := N_of_ascii c in
  if Ascii.eqb c quote || Ascii.eqb c BACKSLASH then String BACKSLASH (chr c)
  else if Ascii.eqb c TAB then String BACKSLASH "t"
  else if Ascii.eqb c LF then String BACKSLASH "n"
  else if Ascii.eqb c CR then String BACKSLASH "r"
  else if isprintable n then chr c
  else hex_escape n.

Fixpoint escape_all (esc : ascii -> string) (s : string) : string :=
  match s with
  | EmptyString => EmptyString
  | String c s' => esc c +:+ escape_all esc s'
  end.

Definition text_of_bytes (b : list byte) : string := string_of_list_byte b.

(** [repr(s)] for a [str]. *)
Definition str_repr (s : string) : string :=
  let q := pick_quote s in
  String q (escape_all (escape_char q) s +:+ chr q).

(** [repr(b)] for [bytes]: the prefix [b], then the quoted, escaped units. *)
Definition bytes_repr (b : list byte) : string :=
  let s := text_of_bytes b in
  let q := pick_quote s in
  String "b" (String q (escape_all (escape_byte q) s +:+ chr q)).

Definition int_repr (n : Z) : string := NilZero.string_of_int (Z.to_int n).

Fixpoint py_repr (v : pyval) : string :=
  match v with
  | PyNone => "None"
  | PyBool true => "True"
  | PyBool false => "False"
  | PyInt n => int_repr n
  | PyFloat _ text => text
  | PyStr s => str_repr s
  | PyBytes b => bytes_repr b
  | PyTuple items =>
      match items with
      | [] => "()"
      | [x] => "(" +:+ py_repr x +:+ ",)"
      | _ => "(" +:+ join ", " (List.map py_repr items) +:+ ")"
      end
  | PyDict items =>
      "{" +:+ join ", " (List.map (fun kv => match kv with
                                           | (k, x) => py_repr k +:+ ": " +:+ py_repr x
                                           end) items) +:+ "}"
  end.

(** [str(v)], which is also what [format] substitutes for an empty format
    specification: a [str] is itself, every other value its [repr]. *)
Definition py_str (v : pyval) : string :=
  match v with
  | PyStr s => s
  | _ => py_repr v
  end.

(** The order between a [float] and an [int], which Python decides on the
    exact values; there is none for a NaN.  A finite float is its mantissa
    times a power of two. *)
Definition float_compare (x : spec_float) (n : Z) : option comparison :=
  match x with
  | S754_nan => None
  | S754_zero _ => Some (0 ?= n)
  | S754_infinity negative => Some (if negative then Lt else Gt)
  | S754_finite negative m e =>
      let mantissa := if negative then Z.neg m else Z.pos m in
      Some (if 0 <=? e then mantissa * 2 ^ e ?= n else mantissa ?= n * 2 ^ (- e))
  end.

(** [v == n] for an [int] constant [n].  [bool] is a subclass of [int]:
    [False == 0] and [True == 1]; a [float] equals the int of the same
    value; no other embedded type equals an int. *)
Definition eq_int (v : pyval) (n : Z) : bool :=
  match v with
  | PyInt m => m =? n
  | PyBool b => (if b then 1 else 0) =? n
  | PyFloat x _ => match float_compare x n with Some Eq => true | _ => false end
  | _ => false
  end.

(** [v in ns] for a list of [int] constants. *)
Definition in_ints (v : pyval) (ns : list Z) : bool := existsb (eq_int v) ns.

(** The integer a value stands for where an [int] is expected. *)
Definition int_value (v : pyval) : Z :=
  match v with
  | PyInt m => m
  | PyBool b => if b then 1 else 0
  | _ => 0
  end.

(** The values that order against an [int]: what a level is. *)
Inductive number :=
| NInt (n : Z)
| NBool (b : bool)
| NFloat (x : spec_float) (text : string).

Definition num_val (x : number) : pyval :=
  match x with
  | NInt n => PyInt n
  | NBool b => PyBool b
  | NFloat f text => PyFloat f text
  end.

Definition as_number (v : pyval) : option number :=
  match v with
  | PyInt n => Some (NInt n)
  | PyBool b => Some (NBool b)
  | PyFloat f text => Some (NFloat f text)
  | _ => None
  end.

(** [x >= n] for an [int] constant [n]; a comparison with a NaN is false. *)
Definition num_ge (x : number) (n : Z) : bool :=
  match x with
  | NInt m => n <=? m
  | NBool b => n <=? (if b then 1 else 0)
  | NFloat f _ => match float_compare f n with
                  | Some Eq | Some Gt => true
                  | _ => false
                  end
  end.

(** [type(v) is bool] and [type(v) is int]: exact types, so a [bool] is not
    an [int] here. *)
Definition type_is_bool (v : pyval) : bool :=
  match v with PyBool _ => true | _ => false end.
Definition type_is_int (v : pyval) : bool :=
  match v with PyInt _ => true | _ => false end.

(** The stop index of the slice [x[0:n]] of a sequence of length [len]: a
    negative [n] counts from the end, and the result is clipped to
    [0..len]. *)
Definition slice_stop (len : nat) (n : Z) : nat :=
  let stop := if n <? 0 then n + Z.of_nat len else n in
  Z.to_nat (Z.min (Z.max stop 0) (Z.of_nat len)).

(** Exceptions raised by the code under study. *)
Inductive exn :=
| ValueError (msg : string)
| TypeError.

End Py.
Import Py.

(** Raising and sequencing, for the code paths that can fail. *)
Definition result (A : Type) : Type := exn + A.
Definition raise {A : Type} (e : exn) : result A := inl e.
Definition ret {A : Type} (a : A) : result A := inr a.
Definition bind {A B : Type} (m : result A) (k : A -> result B) : result B :=
  match m with
  | inl e => inl e
  | inr a => k a
  end.
(** [if c: raise e] *)
Definition raise_if (c : bool) (e : exn) : result unit :=
  if c then raise e else ret tt.

Notation "m ;; k" := (bind m (fun _ => k)) (at level 100, k at level 200, right associativity).

(** A body payload, as [len] and slicing see it: a sequence of units that is
    either a [str] or a [bytes] object. *)
Inductive message :=
| MStr (s : string)
| MBytes (b : list byte).

Definition msg_val (m : message) : pyval :=
  match m with
  | MStr s => PyStr s
  | MBytes b => PyBytes b
  end.

(** [len(msg)] *)
Definition len (m : message) : Z :=
  match m with
  | MStr s => Z.of_nat (String.length s)
  | MBytes b => Z.of_nat (List.length b)
  end.

(** [msg[0:n]] *)
Definition slice_to (m : message) (n : Z) : message :=
  match m with
  | MStr s => MStr (substring 0 (slice_stop (String.length s) n) s)
  | MBytes b => MBytes (firstn (slice_stop (List.length b) n) b)
  end.

(** The levels of Python's [logging] module. *)
Module logging.
Definition NOTSET : Z := 0.
Definition DEBUG : Z := 10.
Definition INFO : Z := 20.
Definition WARNING : Z := 30.
Definition ERROR : Z := 40.
Definition CRITICAL : Z := 50.
End logging.

(** [django.utils.termcolors], for the call [colorize(text, fg=colour)]: the
    select-graphic-rendition code of the foreground colour, the text, and the
    reset code.  [colour] lists the names of Django's [color_names], the keys
    of its [foreground] table. *)
Module termcolors.
Inductive colour := black | red | green | yellow | blue | magenta | cyan | white.

Definition color_index (c : colour) : Z :=
  match c with
  | black => 0 | red => 1 | green => 2 | yellow => 3
  | blue => 4 | magenta => 5 | cyan => 6 | white => 7
  end.

Definition foreground (c : colour) : string := "3" +:+ int_repr (color_index c).
Definition RESET : string := "0".

Definition colorize (text : string) (fg : colour) : string :=
  (chr ESC +:+ "[" +:+ foreground fg +:+ "m")
    +:+ (text +:+ chr ESC +:+ "[" +:+ RESET +:+ "m").
End termcolors.
Import termcolors.

(** ** Module-level constants *)

Definition DEFAULT_LOG_LEVEL : Z := logging.DEBUG.
Definition DEFAULT_COLORIZE : bool := true.
Definition DEFAULT_MAX_BODY_LENGTH : Z := 50000.
Definition SETTING_NAMES : gmap string string :=
  <["log_level" := "REQUEST_LOGGING_DATA_LOG_LEVEL"]>
  (<["colorize" := "REQUEST_LOGGING_DISABLE_COLORIZE"]>
  (<["max_body_length" := "REQUEST_LOGGING_MAX_BODY_LENGTH"]> ∅)).

(** ** The sink

    [request_logger = logging.getLogger('django.request')] is process-wide
    state.  The embedding keeps the calls [request_logger.log(level, text)]
    it has received, oldest first; what the logging module does with a
    call is its own business, and every call is taken to return. *)
Definition sink : Type := list (number * string).

Definition request_logger_log (level : number) (text : string) (s : sink) : sink :=
  (s ++ [(level, text)])%list.

(** ** class Logger *)
Module Logger.
Definition log (level : number) (msg : pyval) (s : sink) : sink :=
  request_logger_log level (py_str msg) s.

Definition log_error (level : number) (msg : pyval) (s : sink) : sink :=
  log level msg s.
End Logger.

(** ** class ColourLogger(Logger) *)
Module ColourLogger.
Record t := __init__ { log_colour : colour; log_error_colour : colour }.

Definition _log (self : t) (level : number) (msg : pyval) (colour : colour) (s : sink) : sink :=
  request_logger_log level (colorize (py_str msg) colour) s.

Definition log (self : t) (level : number) (msg : pyval) (s : sink) : sink :=
  let colour := if num_ge level logging.ERROR then log_error_colour self else log_colour self in
  _log self level msg colour s.

Definition log_error (self : t) (level : number) (msg : pyval) (s : sink) : sink :=
  _log self level msg (log_error_colour self) s.
End ColourLogger.

(** An instance of either class; the two functions below are the method
    calls [logger.log(...)] and [logger.log_error(...)] with Python's
    dispatch on the class of the receiver. *)
Inductive logger_obj :=
| LoggerObj
| ColourLoggerObj (self : ColourLogger.t).

Definition call_log (lg : logger_obj) (level : number) (msg : pyval) (s : sink) : sink :=
  match lg with
  | LoggerObj => Logger.log level msg s
  | ColourLoggerObj self => ColourLogger.log self level msg s
  end.

Definition call_log_error (lg : logger_obj) (level : number) (msg : pyval) (s : sink) : sink :=
  match lg with
  | LoggerObj => Logger.log_error level msg s
  | ColourLoggerObj self => ColourLogger.log_error self level msg s
  end.

(** ** The framework objects the hooks read *)

(** [getattr(settings, name, default)]: the settings object as the finite map
    of the attributes it defines. *)
Definition getattr (settings : gmap string pyval) (name : string) (dflt : pyval) : pyval :=
  default dflt (settings !! name).

(** The part of Django's [HttpRequest] the hooks touch: [get_full_path] holds
    the result of the call [request.get_full_path()]. *)
Module HttpRequest.
Record t := {
  method : string;
  get_full_path : string;
  META : list (string * pyval);
  body : message
}.
End HttpRequest.

(** The part of Django's [HttpResponse] the hooks touch.  [_headers] maps a
    lower-cased header name to the pair of the name as given and the value. *)
Module HttpResponse.
Record t := {
  status_code : Z;
  _headers : list (string * (string * string));
  content : message
}.

Fixpoint lookup_header (name : string) (hs : list (string * (string * string)))
  : option (string * string) :=
  match hs with
  | [] => None
  | (k, entry) :: rest => if String.eqb k name then Some entry else lookup_header name rest
  end.

(** ASCII lower case, which is [str.lower] on the header names used here. *)
Definition lower_char (c : ascii) : ascii :=
  let n := N_of_ascii c in
  if (65 <=? n)%N && (n <=? 90)%N then ascii_of_N (n + 32) else c.

Fixpoint lower (s : string) : string :=
  match s with
  | EmptyString => EmptyString
  | String c s' => String (lower_char c) (lower s')
  end.

(** [response.get(header, alternate)], which Django defines as
    [self._headers.get(header.lower(), (None, alternate))[1]]. *)
Definition get (self : t) (header : string) (alternate : string) : string :=
  match lookup_header (lower header) (_headers self) with
  | Some (_, value) => value
  | None => alternate
  end.

(** [response._headers] as a Python value, for [str]. *)
Definition headers_val (self : t) : pyval :=
  PyDict (List.map (fun e => match e with
                             | (k, (name, value)) => (PyStr k, PyTuple [PyStr name; PyStr value])
                             end) (_headers self)).
End HttpResponse.

(** [re.match(pattern, text, re.I)] for a pattern that is a start anchor
    followed by lower-case letters and characters without a special meaning:
    the text must begin with the pattern, letters compared without case.  On
    the code points 0..255 only the ASCII letters fold onto ASCII letters. *)
Module re.
Fixpoint match_literal_I (pat text : string) : bool :=
  match pat, text with
  | EmptyString, _ => true
  | String _ _, EmptyString => false
  | String p pat', String c text' =>
      Ascii.eqb (HttpResponse.lower_char c) p && match_literal_I pat' text'
  end.
End re.

(** ** class LoggingMiddleware(MiddlewareMixin) *)

(** [object.__init__] applied to the positional and keyword arguments of the
    call, reached through [super(MiddlewareMixin, self)]: for a class that
    overrides [__init__] it raises [TypeError] on any argument. *)
Definition object_init (args : list pyval) (kwargs : list (string * pyval)) : result unit :=
  match args, kwargs with
  | [], [] => ret tt
  | _, _ => raise TypeError
  end.

Module LoggingMiddleware.
(** The attributes of an instance.  [log_level] keeps the setting itself,
    which is a number once it has passed the check of [__init__]. *)
Record t := {
  log_level : number;
  max_body_length : Z;
  logger : logger_obj
}.

Definition accepted_levels : list Z :=
  [logging.NOTSET; logging.DEBUG; logging.INFO;
   logging.WARNING; logging.ERROR; logging.CRITICAL].

(** The check [log_level not in [...]] passes for a value that equals one of
    the constants; such a value is a number, and the instance keeps it, as
    it is, under that type. *)
Definition __init__ (args : list pyval) (kwargs : list (string * pyval))
    (settings : gmap string pyval) : result t :=
  object_init args kwargs ;;
  let log_level := getattr settings (SETTING_NAMES !!! "log_level") (PyInt DEFAULT_LOG_LEVEL) in
  match (if in_ints log_level accepted_levels then as_number log_level else None) with
  | None =>
      raise (ValueError ("Unknown log level(" +:+ py_str log_level +:+ ") in setting("
                         +:+ (SETTING_NAMES !!! "log_level") +:+ ")"))
  | Some kept =>
      let enable_colorize :=
        getattr settings (SETTING_NAMES !!! "colorize") (PyBool DEFAULT_COLORIZE) in
      raise_if (negb (type_is_bool enable_colorize))
        (ValueError ((SETTING_NAMES !!! "colorize") +:+ " should be boolean. "
                     +:+ py_str enable_colorize +:+ " is not boolean.")) ;;
      let max_body_length := getattr settings (SETTING_NAMES !!! "max_body_length")
                               (PyInt DEFAULT_MAX_BODY_LENGTH) in
      raise_if (negb (type_is_int max_body_length))
        (ValueError ((SETTING_NAMES !!! "max_body_length") +:+ " should be int. "
                     +:+ py_str max_body_length +:+ " is not int.")) ;;
      ret {| log_level := kept;
             max_body_length := int_value max_body_length;
             logger := match enable_colorize with
                       | PyBool true => ColourLoggerObj (ColourLogger.__init__ cyan magenta)
                       | _ => LoggerObj
                       end |}
  end.

(** The text after the replacement field of the template
    ["{0}\n...\n"]: a line feed, three dots, a line feed. *)
Definition marker : string := String LF ("..." +:+ chr LF).

Definition _chunked_to_max (self : t) (msg : message) : message :=
  if max_body_length self <? len msg
  then MStr (py_str (msg_val (slice_to msg (max_body_length self))) +:+ marker)
  else msg.

Definition process_request (self : t) (request : HttpRequest.t) (s : sink) : sink :=
  let method_path := HttpRequest.method request +:+ " " +:+ HttpRequest.get_full_path request in
  let s := call_log (logger self) (NInt logging.INFO) (PyStr method_path) s in
  let headers := List.filter (fun kv => String.prefix "HTTP_" (fst kv)) (HttpRequest.META request) in
  let s := match headers with
           | [] => s
           | _ :: _ =>
               call_log (logger self) (log_level self)
                 (PyDict (List.map (fun kv => (PyStr (fst kv), snd kv)) headers)) s
           end in
  if len (HttpRequest.body request) =? 0 then s
  else call_log (logger self) (log_level self)
         (msg_val (_chunked_to_max self (HttpRequest.body request))) s.

Definition _log_resp (self : t) (level : number) (response : HttpResponse.t) (s : sink) : sink :=
  if re.match_literal_I "application/json" (HttpResponse.get response "Content-Type" "")
  then
    let s := call_log (logger self) level (HttpResponse.headers_val response) s in
    call_log (logger self) level (msg_val (_chunked_to_max self (HttpResponse.content response))) s
  else s.

(** [status_code in range(400, 600)] *)
Definition in_range_400_600 (n : Z) : bool := (400 <=? n) && (n <? 600).

Definition process_response (self : t) (request : HttpRequest.t) (response : HttpResponse.t)
    (s : sink) : HttpResponse.t * sink :=
  let resp_log := HttpRequest.method request +:+ " " +:+ HttpRequest.get_full_path request
                  +:+ " - " +:+ int_repr (HttpResponse.status_code response) in
  let s :=
    if in_range_400_600 (HttpResponse.status_code response)
    then
      let s := call_log_error (logger self) (NInt logging.INFO) (PyStr resp_log) s in
      _log_resp self (NInt logging.ERROR) response s
    else
      let s := call_log (logger self) (NInt logging.INFO) (PyStr resp_log) s in
      _log_resp self (log_level self) response s in
  (response, s).
End LoggingMiddleware.

(** ** The response hook on objects

    A Python response is an object with an identity, and its attributes can
    be assigned to.  Here the responses that exist live in a store and the
    hook receives a reference; every access the source makes to the response
    is a step on the world made of that store and of the sink. *)
Module Objects.
Record world := {
  objects : gmap positive HttpResponse.t;
  logged : sink
}.

(** A step yields a value and the next world, or nothing when it reaches
    for an object that is not in the store. *)
Definition prog (A : Type) : Type := world -> option (A * world).

Definition unit_prog {A : Type} (a : A) : prog A := fun w => Some (a, w).

Definition then_prog {A B : Type} (m : prog A) (k : A -> prog B) : prog B :=
  fun w => match m w with
           | Some (a, w') => k a w'
           | None => None
           end.

Notation "'do' x <- m ; k" := (then_prog m (fun x => k))
  (at level 10, x name, m at level 100, k at level 200).

(** Reading through a reference: [f] is what the access computes from the
    object. *)
Definition read {A : Type} (r : positive) (f : HttpResponse.t -> A) : prog A :=
  fun w => match objects w !! r with
           | Some obj => Some (f obj, w)
           | None => None
           end.

(** A call to a method of the logger: the sink moves, the store does not. *)
Definition emit (f : sink -> sink) : prog unit :=
  fun w => Some (tt, {| objects := objects w; logged := f (logged w) |}).

Definition _log_resp (self : LoggingMiddleware.t) (level : number) (response : positive)
  : prog unit :=
  do content_type <- read response (fun obj => HttpResponse.get obj "Content-Type" "");
  if re.match_literal_I "application/json" content_type
  then
    do headers <- read response HttpResponse.headers_val;
    do _ <- emit (call_log (LoggingMiddleware.logger self) level headers);
    do content <- read response HttpResponse.content;
    emit (call_log (LoggingMiddleware.logger self) level
            (msg_val (LoggingMiddleware._chunked_to_max self content)))
  else unit_prog tt.

Definition process_response (self : LoggingMiddleware.t) (request : HttpRequest.t)
    (response : positive) : prog positive :=
  do code <- read response HttpResponse.status_code;
  let resp_log := HttpRequest.method request +:+ " " +:+ HttpRequest.get_full_path request
                  +:+ " - " +:+ int_repr code in
  do code <- read response HttpResponse.status_code;
  do _ <- (if LoggingMiddleware.in_range_400_600 code
           then
             do _ <- emit (call_log_error (LoggingMiddleware.logger self)
                             (NInt logging.INFO) (PyStr resp_log));
             _log_resp self (NInt logging.ERROR) response
           else
             do _ <- emit (call_log (LoggingMiddleware.logger self)
                             (NInt logging.INFO) (PyStr resp_log));
             _log_resp self (LoggingMiddleware.log_level self) response);
  unit_prog response.
End Objects.


(** ** Vocabulary of the statements *)

(** The text a sink adapter hands to [request_logger]: untouched by a plain
    [Logger], wrapped in one of its two colour tags by a [ColourLogger]. *)
Definition tagged (lg : logger_obj) (error_tag : bool) (text : string) : string :=
  match lg with
  | LoggerObj => text
  | ColourLoggerObj self =>
      colorize text (if error_tag then ColourLogger.log_error_colour self
                     else ColourLogger.log_colour self)
  end.

(** The empty sequence of the type of [m]. *)
Definition empty_like (m : message) : message :=
  match m with
  | MStr _ => MStr EmptyString
  | MBytes _ => MBytes []
  end.

(** An instance whose only interesting attribute is the body limit. *)
Definition with_limit (n : Z) : LoggingMiddleware.t :=
  {| LoggingMiddleware.log_level := NInt logging.DEBUG;
     LoggingMiddleware.max_body_length := n;
     LoggingMiddleware.logger := LoggerObj |}.

Import LoggingMiddleware.

(** The instance a successful construction builds from the level it keeps
    and the two other resolved settings. *)
Definition built (level : number) (flag limit : pyval) : t :=
  {| log_level := level;
     max_body_length := int_value limit;
     logger := match flag with
               | PyBool true => ColourLoggerObj (ColourLogger.__init__ cyan magenta)
               | _ => LoggerObj
               end |}.

(** ** Sample objects *)

(** The instance built from an empty settings object. *)
Definition default_middleware : t :=
  built (NInt logging.DEBUG) (PyBool true) (PyInt 50000).

(** GET [/x?y=1] with server metadata only and no body. *)
Definition request_get : HttpRequest.t :=
  {| HttpRequest.method := "GET";
     HttpRequest.get_full_path := "/x?y=1";
     HttpRequest.META := [("SERVER_NAME", PyStr "testserver"); ("REQUEST_METHOD", PyStr "GET")];
     HttpRequest.body := MBytes [] |}.

(** POST [/items] with one header entry and a body of five bytes. *)
Definition request_post : HttpRequest.t :=
  {| HttpRequest.method := "POST";
     HttpRequest.get_full_path := "/items";
     HttpRequest.META := [("SERVER_NAME", PyStr "testserver"); ("HTTP_HOST", PyStr "example.org")];
     HttpRequest.body := MBytes (list_byte_of_string "hello") |}.

(** The JSON text of an object with the key e and the value 1. *)
Definition json_e1 : string := "{" +:+ chr DQUOTE +:+ "e" +:+ chr DQUOTE +:+ ":1}".

Definition response_404 : HttpResponse.t :=
  {| HttpResponse.status_code := 404;
     HttpResponse._headers := [("content-type", ("Content-Type", "application/json"))];
     HttpResponse.content := MBytes (list_byte_of_string json_e1) |}.

Definition response_200_json : HttpResponse.t :=
  {| HttpResponse.status_code := 200;
     HttpResponse._headers := [("content-type", ("Content-Type", "Application/JSON; charset=utf-8"))];
     HttpResponse.content := MBytes (list_byte_of_string json_e1) |}.

Definition response_200_plain : HttpResponse.t :=
  {| HttpResponse.status_code := 200;
     HttpResponse._headers := [("content-type", ("Content-Type", "text/plain"))];
     HttpResponse.content := MBytes (list_byte_of_string "ok") |}.

(** * Properties *)

(** ** Strings and slices *)

Lemma length_append (a b : string) :
  String.length (a +:+ b) = (String.length a + String.length b)%nat.
Proof. induction a as [|c a IH]; simpl; [reflexivity | now rewrite IH]. Qed.

Lemma length_substring0 (n : nat) (s : string) :
  String.length (substring 0 n s) = Nat.min n (String.length s).
Proof.
  revert n; induction s as [|c s IH]; intros [|n]; simpl; try reflexivity.
  now rewrite IH.
Qed.

Lemma length_marker : String.length marker = 5%nat.
Proof. reflexivity. Qed.

Lemma slice_stop_nonneg (k : nat) (n : Z) :
  0 <= n -> n < Z.of_nat k -> slice_stop k n = Z.to_nat n.
Proof.
  intros H0 Hlt. unfold slice_stop.
  destruct (Z.ltb_spec n 0); [lia|]. f_equal. lia.
Qed.

Lemma slice_stop_neg (k : nat) (n : Z) :
  n < 0 -> slice_stop k n = Z.to_nat (Z.of_nat k + n).
Proof.
  intros Hn. unfold slice_stop.
  destruct (Z.ltb_spec n 0); [|lia]. lia.
Qed.

Lemma len_nonneg (m : message) : 0 <= len m.
Proof. destruct m; simpl; lia. Qed.

Lemma chunked_within (self : t) (msg : message) :
  len msg <= max_body_length self -> _chunked_to_max self msg = msg.
Proof.
  intros H. unfold _chunked_to_max.
  destruct (Z.ltb_spec (max_body_length self) (len msg)); [lia | reflexivity].
Qed.

Lemma chunked_beyond (self : t) (msg : message) :
  max_body_length self < len msg ->
  _chunked_to_max self msg
  = MStr (py_str (msg_val (slice_to msg (max_body_length self))) +:+ marker).
Proof.
  intros H. unfold _chunked_to_max.
  destruct (Z.ltb_spec (max_body_length self) (len msg)); [reflexivity | lia].
Qed.

(** ** Truncation *)

(** C1, as amended.  Within the limit the message comes back as it is.
    Beyond the limit the result is the [str] made of the text of [msg[0:N]]
    and the marker; for a [str] message and [0 <= N] that is the first [N]
    units of the message followed by the marker, [N + 5] units in all (the
    marker counts five units, not four). *)
Theorem chunked_to_max_spec (self : t) (msg : message) :
  let N := max_body_length self in
  (len msg <= N -> _chunked_to_max self msg = msg) /\
  (N < len msg ->
     _chunked_to_max self msg = MStr (py_str (msg_val (slice_to msg N)) +:+ marker)) /\
  (forall s : string, msg = MStr s -> 0 <= N -> N < len msg ->
     _chunked_to_max self msg = MStr (substring 0 (Z.to_nat N) s +:+ marker)
     /\ String.length (substring 0 (Z.to_nat N) s) = Z.to_nat N
     /\ len (_chunked_to_max self msg) = N + 5).
Proof.
  intros N. split; [apply chunked_within|]. split; [apply chunked_beyond|].
  intros s -> H0 Hlt. rewrite chunked_beyond by exact Hlt. fold N.
  simpl in Hlt. simpl slice_to. rewrite slice_stop_nonneg by assumption.
  assert (Hpre : String.length (substring 0 (Z.to_nat N) s) = Z.to_nat N).
  { rewrite length_substring0. lia. }
  repeat split; [exact Hpre|].
  simpl. rewrite length_append, Hpre, length_marker. lia.
Qed.

Lemma chunked_to_max_spec_witness :
  _chunked_to_max (with_limit 5) (MStr "hello") = MStr "hello"
  /\ _chunked_to_max (with_limit 3) (MBytes (list_byte_of_string "hello"))
     = MStr ("b'hel'" +:+ marker)
  /\ _chunked_to_max (with_limit 3) (MStr "hello") = MStr ("hel" +:+ marker)
  /\ len (_chunked_to_max (with_limit 3) (MStr "hello")) = 3 + 5.
Proof.
  split; [| split; [| split]].
  - apply (proj1 (chunked_to_max_spec (with_limit 5) (MStr "hello"))).
    vm_compute. discriminate.
  - apply (proj1 (proj2 (chunked_to_max_spec (with_limit 3)
                           (MBytes (list_byte_of_string "hello"))))).
    reflexivity.
  - apply (proj2 (proj2 (chunked_to_max_spec (with_limit 3) (MStr "hello")))
             "hello" eq_refl); [discriminate | reflexivity].
  - apply (proj2 (proj2 (chunked_to_max_spec (with_limit 3) (MStr "hello")))
             "hello" eq_refl); [discriminate | reflexivity].
Defined.

(** C1 as the specification words it fails: a message of three units cut at
    one unit comes back with six units, not five. *)
Lemma chunked_to_max_length_counterexample :
  ~ (forall (self : t) (msg : message),
       (len msg <= max_body_length self -> _chunked_to_max self msg = msg) /\
       (max_body_length self < len msg ->
          _chunked_to_max self msg
          = MStr (py_str (msg_val (slice_to msg (max_body_length self))) +:+ marker)
          /\ len (_chunked_to_max self msg) = max_body_length self + 4)).
Proof.
  intros H. destruct (H (with_limit 1) (MStr "abc")) as [_ H2].
  destruct (H2 eq_refl) as [_ Hlen]. vm_compute in Hlen. discriminate Hlen.
Qed.



(** ** Construction *)

Lemma name_log_level : SETTING_NAMES !!! "log_level" = "REQUEST_LOGGING_DATA_LOG_LEVEL".
Proof. reflexivity. Qed.

Lemma name_colorize : SETTING_NAMES !!! "colorize" = "REQUEST_LOGGING_DISABLE_COLORIZE".
Proof. reflexivity. Qed.

Lemma name_max_body_length :
  SETTING_NAMES !!! "max_body_length" = "REQUEST_LOGGING_MAX_BODY_LENGTH".
Proof. reflexivity. Qed.

Lemma as_number_val (v : pyval) (x : number) : as_number v = Some x -> num_val x = v.
Proof. destruct v; intros H; try discriminate H; injection H as <-; reflexivity. Qed.

Lemma num_val_number (x : number) : as_number (num_val x) = Some x.
Proof. now destruct x. Qed.

(** A value that equals an int is a number. *)
Lemma eq_int_number (v : pyval) (n : Z) :
  eq_int v n = true -> exists x : number, as_number v = Some x.
Proof. destruct v; intros H; try discriminate H; eauto. Qed.

Lemma in_ints_number (v : pyval) (ns : list Z) :
  in_ints v ns = true -> exists x : number, as_number v = Some x /\ num_val x = v.
Proof.
  intros H. apply existsb_exists in H. destruct H as (n & _ & Hn).
  destruct (eq_int_number v n Hn) as [x Hx]. exists x. split; [exact Hx|].
  now apply as_number_val.
Qed.

(** Construction without arguments, check by check, in the order of the
    source: either the level is refused, or it is kept as the number it is
    and the two other checks follow. *)
Lemma init_unfold (settings : gmap string pyval) :
  let level := getattr settings "REQUEST_LOGGING_DATA_LOG_LEVEL" (PyInt logging.DEBUG) in
  let flag := getattr settings "REQUEST_LOGGING_DISABLE_COLORIZE" (PyBool true) in
  let limit := getattr settings "REQUEST_LOGGING_MAX_BODY_LENGTH" (PyInt 50000) in
  (in_ints level accepted_levels = false
   /\ __init__ [] [] settings
      = raise (ValueError ("Unknown log level(" +:+ py_str level
                           +:+ ") in setting(REQUEST_LOGGING_DATA_LOG_LEVEL)")))
  \/ (exists kept : number,
        in_ints level accepted_levels = true /\ num_val kept = level
        /\ __init__ [] [] settings =
             if negb (type_is_bool flag) then
               raise (ValueError ("REQUEST_LOGGING_DISABLE_COLORIZE should be boolean. "
                                  +:+ py_str flag +:+ " is not boolean."))
             else if negb (type_is_int limit) then
               raise (ValueError ("REQUEST_LOGGING_MAX_BODY_LENGTH should be int. "
                                  +:+ py_str limit +:+ " is not int."))
             else ret (built kept flag limit)).
Proof.
  intros level flag limit. unfold __init__.
  rewrite name_log_level, name_colorize, name_max_body_length.
  change DEFAULT_LOG_LEVEL with logging.DEBUG.
  change DEFAULT_COLORIZE with true.
  change DEFAULT_MAX_BODY_LENGTH with 50000.
  fold level flag limit.
  destruct (in_ints level accepted_levels) eqn:Hl; [|left; split; reflexivity].
  right. destruct (in_ints_number level accepted_levels Hl) as (kept & Hkept & Hval).
  exists kept. split; [reflexivity|]. split; [exact Hval|]. rewrite Hkept.
  destruct (type_is_bool flag); [|reflexivity].
  destruct (type_is_int limit); reflexivity.
Qed.

(** Any argument makes the call to [object.__init__] fail before a setting
    is read. *)
Lemma init_with_arguments (a : pyval) (args : list pyval) (kwargs : list (string * pyval))
    (settings : gmap string pyval) :
  __init__ (a :: args) kwargs settings = raise TypeError.
Proof. reflexivity. Qed.

Lemma in_ints_true (v : pyval) (ns : list Z) :
  in_ints v ns = true <-> exists n : Z, In n ns /\ eq_int v n = true.
Proof. unfold in_ints. apply existsb_exists. Qed.

Lemma in_ints_false (v : pyval) (ns : list Z) :
  in_ints v ns = false <-> forall n : Z, In n ns -> eq_int v n = false.
Proof.
  unfold in_ints. induction ns as [|m ns IH]; simpl.
  - split; [intros _ n []| reflexivity].
  - rewrite orb_false_iff, IH. split.
    + intros [Hm Hns] n [<-|Hn]; auto.
    + intros H. split; [apply H; auto | intros n Hn; apply H; auto].
Qed.

(** C6.  Construction (without arguments) raises [ValueError] whenever the
    resolved log level equals none of the six level constants, or the colour
    flag is not a [bool], or the body limit is not an [int], as with the
    string ["100"]; with three valid settings it succeeds and keeps the
    level setting itself, and with no setting at all it takes the defaults:
    level DEBUG, colour enabled, limit 50000. *)
Theorem init_validates (settings : gmap string pyval) :
  let level := getattr settings "REQUEST_LOGGING_DATA_LOG_LEVEL" (PyInt logging.DEBUG) in
  let flag := getattr settings "REQUEST_LOGGING_DISABLE_COLORIZE" (PyBool true) in
  let limit := getattr settings "REQUEST_LOGGING_MAX_BODY_LENGTH" (PyInt 50000) in
  ((forall n : Z, In n accepted_levels -> eq_int level n = false)
   \/ type_is_bool flag = false \/ type_is_int limit = false ->
   exists msg : string, __init__ [] [] settings = raise (ValueError msg)) /\
  ((exists n : Z, In n accepted_levels /\ eq_int level n = true) ->
   type_is_bool flag = true -> type_is_int limit = true ->
   exists kept : number,
     num_val kept = level /\ __init__ [] [] settings = ret (built kept flag limit)) /\
  (settings !! "REQUEST_LOGGING_MAX_BODY_LENGTH" = Some (PyStr "100") ->
   exists msg : string, __init__ [] [] settings = raise (ValueError msg)) /\
  __init__ [] [] ∅
  = ret {| log_level := NInt logging.DEBUG;
           max_body_length := 50000;
           logger := ColourLoggerObj (ColourLogger.__init__ cyan magenta) |}.
Proof.
  intros level flag limit.
  assert (Hbad : (forall n : Z, In n accepted_levels -> eq_int level n = false)
                 \/ type_is_bool flag = false \/ type_is_int limit = false ->
                 exists msg : string, __init__ [] [] settings = raise (ValueError msg)).
  { intros Hbad.
    destruct (init_unfold settings) as [[_ ->] | (kept & Hl & _ & ->)]; [eauto|].
    fold level flag limit in Hl |- *.
    destruct (type_is_bool flag) eqn:Hf; simpl; [|eauto].
    destruct (type_is_int limit) eqn:Hm; simpl; [|eauto].
    destruct Hbad as [Hbad | [Hbad | Hbad]]; try discriminate.
    apply in_ints_false in Hbad. congruence. }
  split; [exact Hbad|]. split; [|split].
  - intros Hl Hf Hm. apply in_ints_true in Hl.
    destruct (init_unfold settings) as [[Hno _] | (kept & _ & Hkept & ->)].
    + fold level in Hno. congruence.
    + fold level flag limit in Hkept |- *. exists kept. split; [exact Hkept|].
      now rewrite Hf, Hm.
  - intros Hs. apply Hbad. right; right.
    subst limit. unfold getattr. now rewrite Hs.
  - reflexivity.
Qed.

Lemma init_validates_witness :
  (exists msg : string,
     __init__ [] [] (<["REQUEST_LOGGING_MAX_BODY_LENGTH" := PyStr "100"]> ∅)
     = raise (ValueError msg))
  /\ (exists msg : string,
        __init__ [] [] (<["REQUEST_LOGGING_DATA_LOG_LEVEL" := PyInt 15]> ∅)
        = raise (ValueError msg))
  /\ exists kept : number,
       num_val kept = PyInt logging.DEBUG
       /\ __init__ [] [] (<["REQUEST_LOGGING_DISABLE_COLORIZE" := PyBool false]> ∅)
          = ret (built kept (PyBool false) (PyInt 50000)).
Proof.
  split; [| split].
  - apply (proj1 (proj2 (proj2
      (init_validates (<["REQUEST_LOGGING_MAX_BODY_LENGTH" := PyStr "100"]> ∅))))).
    reflexivity.
  - apply (proj1 (init_validates (<["REQUEST_LOGGING_DATA_LOG_LEVEL" := PyInt 15]> ∅))).
    left. apply in_ints_false. reflexivity.
  - assert (Hlevel : exists n : Z,
              In n accepted_levels
              /\ eq_int (getattr (<["REQUEST_LOGGING_DISABLE_COLORIZE" := PyBool false]> ∅)
                           "REQUEST_LOGGING_DATA_LOG_LEVEL" (PyInt logging.DEBUG)) n = true).
    { exists logging.DEBUG. split; [vm_compute; auto | reflexivity]. }
    exact (proj1 (proj2
             (init_validates (<["REQUEST_LOGGING_DISABLE_COLORIZE" := PyBool false]> ∅)))
             Hlevel eq_refl eq_refl).
Defined.

Lemma getattr_insert_eq (settings : gmap string pyval) (name : string) (v dflt : pyval) :
  getattr (<[name := v]> settings) name dflt = v.
Proof. unfold getattr. now rewrite lookup_insert_eq. Qed.

Lemma getattr_insert_ne (settings : gmap string pyval) (name other : string) (v dflt : pyval) :
  name <> other ->
  getattr (<[name := v]> settings) other dflt = getattr settings other dflt.
Proof. intros Hne. unfold getattr. now rewrite lookup_insert_ne. Qed.

Lemma slice_to_zero (msg : message) : slice_to msg 0 = empty_like msg.
Proof.
  assert (H0 : forall k : nat, slice_stop k 0 = 0%nat).
  { intros k. unfold slice_stop. simpl. lia. }
  destruct msg as [s|b]; simpl; rewrite H0; [now destruct s | reflexivity].
Qed.

Lemma len_slice_to_neg (msg : message) (n : Z) :
  n < 0 -> len (slice_to msg n) = Z.max 0 (len msg + n).
Proof.
  intros Hn. destruct msg as [s|b]; simpl; rewrite slice_stop_neg by assumption.
  - rewrite length_substring0. lia.
  - rewrite length_firstn. lia.
Qed.

(** C8, as amended.  The body limit is not checked for its sign: whatever
    the other two valid settings are, every integer [N] is accepted and kept
    as the limit.  With [N = 0] a body that is not empty is cut to the empty
    prefix, followed by the marker.  With [N < 0] every body, the empty one
    included, is cut to [msg[0:N]], the body without its last [-N] units,
    followed by the marker; that prefix is empty only when the body has at
    most [-N] units. *)
Theorem init_any_limit (N : Z) (settings : gmap string pyval) :
  let level := getattr settings "REQUEST_LOGGING_DATA_LOG_LEVEL" (PyInt logging.DEBUG) in
  let flag := getattr settings "REQUEST_LOGGING_DISABLE_COLORIZE" (PyBool true) in
  (in_ints level accepted_levels = true -> type_is_bool flag = true ->
   exists self : t,
     __init__ [] [] (<["REQUEST_LOGGING_MAX_BODY_LENGTH" := PyInt N]> settings) = ret self
     /\ max_body_length self = N) /\
  (forall (self : t) (msg : message), max_body_length self = N ->
     (N = 0 -> 0 < len msg ->
      _chunked_to_max self msg = MStr (py_str (msg_val (empty_like msg)) +:+ marker)) /\
     (N < 0 ->
      _chunked_to_max self msg = MStr (py_str (msg_val (slice_to msg N)) +:+ marker)
      /\ len (slice_to msg N) = Z.max 0 (len msg + N))).
Proof.
  intros level flag. split.
  - intros Hl Hf.
    destruct (init_unfold (<["REQUEST_LOGGING_MAX_BODY_LENGTH" := PyInt N]> settings))
      as [[Hno _] | (kept & _ & _ & ->)].
    + rewrite getattr_insert_ne in Hno by discriminate. fold level in Hno. congruence.
    + rewrite !getattr_insert_ne by discriminate. rewrite getattr_insert_eq.
      fold flag. rewrite Hf. simpl. eexists. split; reflexivity.
  - intros self msg HN. split.
    + intros H0 Hlen. rewrite chunked_beyond by lia.
      now rewrite HN, H0, slice_to_zero.
    + intros Hneg. pose proof (len_nonneg msg).
      rewrite chunked_beyond by lia. rewrite HN.
      split; [reflexivity | now apply len_slice_to_neg].
Qed.

Lemma init_any_limit_witness :
  (exists self : t,
     __init__ [] [] (<["REQUEST_LOGGING_MAX_BODY_LENGTH" := PyInt (-2)]> ∅) = ret self
     /\ max_body_length self = -2)
  /\ _chunked_to_max (with_limit 0) (MStr "hello") = MStr marker
  /\ _chunked_to_max (with_limit (-2)) (MStr "hello") = MStr ("hel" +:+ marker).
Proof.
  split; [| split].
  - apply (proj1 (init_any_limit (-2) ∅)); reflexivity.
  - apply (proj1 (proj2 (init_any_limit 0 ∅) (with_limit 0) (MStr "hello") eq_refl));
      reflexivity.
  - apply (proj2 (proj2 (init_any_limit (-2) ∅) (with_limit (-2)) (MStr "hello") eq_refl)).
    reflexivity.
Defined.

(** C8 as worded fails for a negative limit: with the limit -1 the body
    ["ab"] keeps its first unit. *)
Lemma negative_limit_counterexample :
  ~ (forall (N : Z) (self : t) (msg : message),
       N <= 0 -> max_body_length self = N -> 0 < len msg ->
       _chunked_to_max self msg = MStr (py_str (msg_val (empty_like msg)) +:+ marker)).
Proof.
  intros H.
  specialize (H (-1) (with_limit (-1)) (MStr "ab")).
  assert (Hcut : _chunked_to_max (with_limit (-1)) (MStr "ab") = MStr ("a" +:+ marker))
    by reflexivity.
  rewrite Hcut in H.
  specialize (H ltac:(lia) eq_refl eq_refl). discriminate H.
Qed.

Lemma in_ints_cases (v : pyval) (ns : list Z) :
  in_ints v ns = false \/ in_ints v ns = true.
Proof. destruct (in_ints v ns); auto. Qed.

(** C10, as amended.  The log-level check is a membership test by equality.
    Construction refuses a value, with the [ValueError] about the log
    level and whatever the other settings are, when it equals none of the
    six constants 0, 10, 20, 30, 40, 50; a value that equals one of them is
    accepted and kept as it is.  An [int] is refused exactly when it is none
    of the six constants, a [bool] exactly when it is [True] ([False]
    equals 0), a [float] exactly when its value is none of the six (10.0
    equals 10), and [None], strings, bytes, tuples and dicts always. *)
Theorem init_log_level_accepted (v : pyval) (settings : gmap string pyval) :
  let refused := forall n : Z, In n accepted_levels -> eq_int v n = false in
  (refused ->
   __init__ [] [] (<["REQUEST_LOGGING_DATA_LOG_LEVEL" := v]> settings)
   = raise (ValueError ("Unknown log level(" +:+ py_str v
                        +:+ ") in setting(REQUEST_LOGGING_DATA_LOG_LEVEL)"))) /\
  (~ refused ->
   exists self : t,
     __init__ [] [] (<["REQUEST_LOGGING_DATA_LOG_LEVEL" := v]> ∅) = ret self
     /\ num_val (log_level self) = v) /\
  (refused <-> match v with
               | PyInt m => ~ In m accepted_levels
               | PyBool b => b = true
               | PyFloat x _ =>
                   forall n : Z, In n accepted_levels -> float_compare x n <> Some Eq
               | _ => True
               end).
Proof.
  intros refused. split; [| split].
  - intros Hout. apply in_ints_false in Hout.
    destruct (init_unfold (<["REQUEST_LOGGING_DATA_LOG_LEVEL" := v]> settings))
      as [[_ ->] | (kept & Hl & _ & _)]; rewrite getattr_insert_eq in *.
    + reflexivity.
    + congruence.
  - intros Hin.
    destruct (init_unfold (<["REQUEST_LOGGING_DATA_LOG_LEVEL" := v]> ∅))
      as [[Hno _] | (kept & _ & Hkept & ->)]; rewrite getattr_insert_eq in *.
    + exfalso. apply Hin. exact (proj1 (in_ints_false v accepted_levels) Hno).
    + rewrite !getattr_insert_ne by discriminate.
      eexists. split; [reflexivity | exact Hkept].
  - subst refused. unfold accepted_levels.
    unfold logging.NOTSET, logging.DEBUG, logging.INFO, logging.WARNING,
      logging.ERROR, logging.CRITICAL.
    destruct v as [ | [|] | m | x text | s | b | items | items ]; simpl;
      try (split; [exact (fun _ => I) | intros _ n _; reflexivity]).
    + split; [reflexivity|]. intros _ n Hn.
      repeat (destruct Hn as [<-|Hn]; [reflexivity|]). contradiction.
    + split; [|discriminate]. intros H. now specialize (H 0 (or_introl eq_refl)).
    + split.
      * intros H Hin. specialize (H m Hin). apply Z.eqb_neq in H. now apply H.
      * intros H n Hn. apply Z.eqb_neq. intros ->. now apply H.
    + split.
      * intros H n Hn Heq. specialize (H n Hn). now rewrite Heq in H.
      * intros H n Hn. specialize (H n Hn).
        destruct (float_compare x n) as [[| |]|]; try reflexivity. now contradiction H.
Qed.

Lemma init_log_level_accepted_witness :
  __init__ [] [] (<["REQUEST_LOGGING_DATA_LOG_LEVEL" := PyStr "DEBUG"]> ∅)
  = raise (ValueError "Unknown log level(DEBUG) in setting(REQUEST_LOGGING_DATA_LOG_LEVEL)")
  /\ __init__ [] [] (<["REQUEST_LOGGING_DATA_LOG_LEVEL" := PyInt 15]> ∅)
     = raise (ValueError "Unknown log level(15) in setting(REQUEST_LOGGING_DATA_LOG_LEVEL)")
  /\ (exists self : t,
        __init__ [] [] (<["REQUEST_LOGGING_DATA_LOG_LEVEL" := PyBool false]> ∅) = ret self
        /\ num_val (log_level self) = PyBool false)
  /\ (exists self : t,
        __init__ [] []
          (<["REQUEST_LOGGING_DATA_LOG_LEVEL" := PyFloat (S754_finite false 5 1) "10.0"]> ∅)
        = ret self
        /\ num_val (log_level self) = PyFloat (S754_finite false 5 1) "10.0").
Proof.
  split; [| split; [| split]].
  - apply (proj1 (init_log_level_accepted (PyStr "DEBUG") ∅)).
    intros n _. reflexivity.
  - apply (proj1 (init_log_level_accepted (PyInt 15) ∅)).
    apply in_ints_false. reflexivity.
  - apply (proj1 (proj2 (init_log_level_accepted (PyBool false) ∅))).
    intros H. specialize (H 0 (or_introl eq_refl)). discriminate H.
  - apply (proj1 (proj2 (init_log_level_accepted
                           (PyFloat (S754_finite false 5 1) "10.0") ∅))).
    intros H. specialize (H 10 (or_intror (or_introl eq_refl))). discriminate H.
Defined.

(** C10 as worded fails: [False] is none of the six constants, and
    construction accepts it. *)
Lemma bool_level_counterexample :
  ~ (forall v : pyval,
       ~ In v [PyInt logging.NOTSET; PyInt logging.DEBUG; PyInt logging.INFO;
               PyInt logging.WARNING; PyInt logging.ERROR; PyInt logging.CRITICAL] ->
       exists msg : string,
         __init__ [] [] (<["REQUEST_LOGGING_DATA_LOG_LEVEL" := v]> ∅)
         = raise (ValueError msg)).
Proof.
  intros H. destruct (H (PyBool false)) as [msg Hmsg].
  - simpl. intuition discriminate.
  - vm_compute in Hmsg. discriminate Hmsg.
Qed.

(** ** Sink adapters *)

Lemma colorize_inj (text : string) (c1 c2 : colour) :
  colorize text c1 = colorize text c2 -> c1 = c2.
Proof. destruct c1, c2; intros H; try reflexivity; discriminate H. Qed.

Lemma call_log_tagged (lg : logger_obj) (level : number) (msg : pyval) (s : sink) :
  call_log lg level msg s
  = (s ++ [(level, tagged lg (num_ge level logging.ERROR) (py_str msg))])%list.
Proof. destruct lg; reflexivity. Qed.

Lemma call_log_error_tagged (lg : logger_obj) (level : number) (msg : pyval) (s : sink) :
  call_log_error lg level msg s = (s ++ [(level, tagged lg true (py_str msg))])%list.
Proof. destruct lg; reflexivity. Qed.

(** C3.  [ColourLogger.log_error] writes the message under the error colour
    whatever the level is; [ColourLogger.log] writes it under the error
    colour from the level ERROR on and under the normal colour below, so
    that, the two colours being different, it is the error colour exactly
    when the level is at least ERROR. *)
Theorem colour_logger_tags (self : ColourLogger.t) (level : Z) (msg : pyval) (s : sink) :
  let normal := ColourLogger.log_colour self in
  let error := ColourLogger.log_error_colour self in
  ColourLogger.log_error self (NInt level) msg s
  = (s ++ [(NInt level, colorize (py_str msg) error)])%list /\
  (logging.ERROR <= level ->
   ColourLogger.log self (NInt level) msg s = (s ++ [(NInt level, colorize (py_str msg) error)])%list) /\
  (level < logging.ERROR ->
   ColourLogger.log self (NInt level) msg s = (s ++ [(NInt level, colorize (py_str msg) normal)])%list) /\
  (normal <> error ->
   (ColourLogger.log self (NInt level) msg s = (s ++ [(NInt level, colorize (py_str msg) error)])%list
    <-> logging.ERROR <= level)).
Proof.
  intros normal error.
  assert (Hhigh : logging.ERROR <= level ->
                  ColourLogger.log self (NInt level) msg s
                  = (s ++ [(NInt level, colorize (py_str msg) error)])%list).
  { intros H. unfold ColourLogger.log, num_ge.
    destruct (Z.leb_spec logging.ERROR level); [reflexivity | lia]. }
  assert (Hlow : level < logging.ERROR ->
                 ColourLogger.log self (NInt level) msg s
                 = (s ++ [(NInt level, colorize (py_str msg) normal)])%list).
  { intros H. unfold ColourLogger.log, num_ge.
    destruct (Z.leb_spec logging.ERROR level); [lia | reflexivity]. }
  split; [reflexivity|]. split; [exact Hhigh|]. split; [exact Hlow|].
  intros Hne. split; [|exact Hhigh].
  intros H. destruct (Z.le_gt_cases logging.ERROR level) as [Hle|Hlt]; [exact Hle|].
  rewrite Hlow in H by exact Hlt.
  apply app_inv_head in H.
  assert (Hc : colorize (py_str msg) normal = colorize (py_str msg) error) by congruence.
  apply colorize_inj in Hc. contradiction.
Qed.

Lemma colour_logger_tags_witness :
  ColourLogger.log (ColourLogger.__init__ cyan magenta) (NInt logging.CRITICAL) (PyStr "m") []
  = [(NInt logging.CRITICAL, colorize "m" magenta)]
  /\ ColourLogger.log (ColourLogger.__init__ cyan magenta) (NInt logging.INFO) (PyStr "m") []
     = [(NInt logging.INFO, colorize "m" cyan)]
  /\ (ColourLogger.log (ColourLogger.__init__ cyan magenta) (NInt logging.ERROR) (PyStr "m") []
      = [(NInt logging.ERROR, colorize "m" magenta)]
      <-> logging.ERROR <= logging.ERROR).
Proof.
  split; [| split].
  - apply (proj1 (proj2 (colour_logger_tags (ColourLogger.__init__ cyan magenta)
                           logging.CRITICAL (PyStr "m") []))).
    vm_compute. discriminate.
  - apply (proj1 (proj2 (proj2 (colour_logger_tags (ColourLogger.__init__ cyan magenta)
                                  logging.INFO (PyStr "m") [])))).
    reflexivity.
  - apply (proj2 (proj2 (proj2 (colour_logger_tags (ColourLogger.__init__ cyan magenta)
                                  logging.ERROR (PyStr "m") [])))).
    simpl. discriminate.
Defined.

(** ** The hooks *)

Lemma lower_char_fixed (c p : ascii) :
  Ascii.eqb (HttpResponse.lower_char c) p
  = if ascii_dec p (HttpResponse.lower_char c) then true else false.
Proof.
  destruct (ascii_dec p (HttpResponse.lower_char c)) as [->|Hne].
  - apply Ascii.eqb_refl.
  - apply Ascii.eqb_neq. congruence.
Qed.

(** The test [re.match('^application/json', text, re.I)] is a prefix test on
    the lower-cased text. *)
Lemma match_literal_I_prefix (pat text : string) :
  re.match_literal_I pat text = String.prefix pat (HttpResponse.lower text).
Proof.
  revert pat; induction text as [|c text IH]; intros [|p pat]; simpl; try reflexivity.
  rewrite lower_char_fixed, IH.
  now destruct (ascii_dec p (HttpResponse.lower_char c)).
Qed.

(** What [_log_resp] adds to the sink. *)
Lemma log_resp_trace (self : t) (level : number) (response : HttpResponse.t) (s : sink) :
  _log_resp self level response s
  = (s ++ if String.prefix "application/json"
               (HttpResponse.lower (HttpResponse.get response "Content-Type" ""))
          then [(level, tagged (logger self) (num_ge level logging.ERROR)
                          (py_str (HttpResponse.headers_val response)));
                (level, tagged (logger self) (num_ge level logging.ERROR)
                          (py_str (msg_val (_chunked_to_max self
                                              (HttpResponse.content response)))))]
          else [])%list.
Proof.
  unfold _log_resp. rewrite match_literal_I_prefix.
  destruct (String.prefix _ _).
  - rewrite !call_log_tagged, <- app_assoc. reflexivity.
  - now rewrite app_nil_r.
Qed.

(** What [process_response] returns and adds to the sink, for every status
    code. *)
Lemma process_response_trace (self : t) (request : HttpRequest.t)
    (response : HttpResponse.t) (s : sink) :
  let failure := in_range_400_600 (HttpResponse.status_code response) in
  let level := if failure then NInt logging.ERROR else log_level self in
  process_response self request response s
  = (response,
     (s ++ (NInt logging.INFO,
            tagged (logger self) failure
              (HttpRequest.method request +:+ " " +:+ HttpRequest.get_full_path request
               +:+ " - " +:+ int_repr (HttpResponse.status_code response)))
        :: if String.prefix "application/json"
                (HttpResponse.lower (HttpResponse.get response "Content-Type" ""))
           then [(level, tagged (logger self) (num_ge level logging.ERROR)
                           (py_str (HttpResponse.headers_val response)));
                 (level, tagged (logger self) (num_ge level logging.ERROR)
                           (py_str (msg_val (_chunked_to_max self
                                               (HttpResponse.content response)))))]
           else [])%list).
Proof.
  intros failure level. unfold process_response. fold failure. subst level.
  destruct failure; f_equal.
  - now rewrite log_resp_trace, call_log_error_tagged, <- app_assoc.
  - now rewrite log_resp_trace, call_log_tagged, <- app_assoc.
Qed.

Lemma in_range_true (n : Z) : 400 <= n <= 599 -> in_range_400_600 n = true.
Proof. intros H. unfold in_range_400_600. apply andb_true_iff. lia. Qed.

Lemma in_range_false (n : Z) : ~ (400 <= n <= 599) -> in_range_400_600 n = false.
Proof. intros H. unfold in_range_400_600. apply andb_false_iff. lia. Qed.

(** C2.  For a status code from 400 to 599 the hook writes the line
    ["METHOD path - status"] at the level INFO under the error colour (the
    [log_error] path), and then, only when the content type starts with
    [application/json] whatever the case of its letters, the headers and the
    truncated body at the level ERROR. *)
Theorem process_response_failure (self : t) (request : HttpRequest.t)
    (response : HttpResponse.t) (s : sink) :
  400 <= HttpResponse.status_code response <= 599 ->
  let lg := logger self in
  let line := HttpRequest.method request +:+ " " +:+ HttpRequest.get_full_path request
              +:+ " - " +:+ int_repr (HttpResponse.status_code response) in
  let json := String.prefix "application/json"
                (HttpResponse.lower (HttpResponse.get response "Content-Type" "")) in
  snd (process_response self request response s)
  = (s ++ (NInt logging.INFO, tagged lg true line)
       :: if json
          then [(NInt logging.ERROR, tagged lg true (py_str (HttpResponse.headers_val response)));
                (NInt logging.ERROR, tagged lg true
                   (py_str (msg_val (_chunked_to_max self (HttpResponse.content response)))))]
          else [])%list.
Proof.
  intros Hcode lg line json.
  rewrite process_response_trace, (in_range_true _ Hcode). reflexivity.
Qed.

Lemma process_response_failure_witness :
  snd (process_response default_middleware request_get response_404 [])
  = [(NInt logging.INFO, colorize "GET /x?y=1 - 404" magenta);
     (NInt logging.ERROR,
      colorize "{'content-type': ('Content-Type', 'application/json')}" magenta);
     (NInt logging.ERROR, colorize ("b'" +:+ json_e1 +:+ "'") magenta)].
Proof.
  etransitivity.
  - apply (process_response_failure default_middleware request_get response_404 []).
    simpl. lia.
  - reflexivity.
Defined.





Lemma read_run {A : Type} (r : positive) (f : HttpResponse.t -> A) (w : Objects.world)
    (obj : HttpResponse.t) :
  Objects.objects w !! r = Some obj -> Objects.read r f w = Some (f obj, w).
Proof. intros H. unfold Objects.read. now rewrite H. Qed.

(** On objects, [_log_resp] moves the sink as it does on values and leaves
    the store alone. *)
Lemma log_resp_run (self : t) (level : number) (r : positive) (w : Objects.world)
    (response : HttpResponse.t) :
  Objects.objects w !! r = Some response ->
  Objects._log_resp self level r w
  = Some (tt, {| Objects.objects := Objects.objects w;
                 Objects.logged := _log_resp self level response (Objects.logged w) |}).
Proof.
  intros Hr. unfold Objects._log_resp, Objects.then_prog, _log_resp.
  rewrite (read_run r _ w response Hr).
  destruct (re.match_literal_I _ _).
  - rewrite (read_run r _ w response Hr). unfold Objects.emit at 1.
    cbn [Objects.objects Objects.logged].
    unfold Objects.read. cbn [Objects.objects]. rewrite Hr. reflexivity.
  - destruct w. reflexivity.
Qed.



(** * Further properties of the module *)

(** ** Construction: arguments, checks in order, the instance built *)

(** X1.  Construction raises [TypeError] exactly when it is given a
    positional or a keyword argument: the call that [super] reaches is
    [object.__init__], which takes none, and no later step raises it. *)
Theorem init_type_error_iff (args : list pyval) (kwargs : list (string * pyval))
    (settings : gmap string pyval) :
  __init__ args kwargs settings = raise TypeError <-> (args <> [] \/ kwargs <> []).
Proof.
  split.
  - intros H. destruct args as [|a args]; [|left; discriminate].
    destruct kwargs as [|k kwargs]; [|right; discriminate].
    destruct (init_unfold settings) as [[_ Hinit] | (kept & _ & _ & Hinit)];
      rewrite Hinit in H.
    + discriminate H.
    + repeat match type of H with
             | (if ?c then _ else _) = _ => destruct c
             end; discriminate H.
  - intros [H|H].
    + destruct args; [contradiction | reflexivity].
    + destruct args; [|reflexivity]. destruct kwargs; [contradiction | reflexivity].
Qed.

(** X2.  Whatever construction returns is well formed: it was called without
    arguments, the level it keeps is the level setting itself, which equals
    one of the six level constants, the limit it keeps is the integer of the
    limit setting, and the logger is either a plain [Logger] or the
    [ColourLogger] with cyan and magenta. *)
Theorem init_instance_invariant (args : list pyval) (kwargs : list (string * pyval))
    (settings : gmap string pyval) (self : t) :
  __init__ args kwargs settings = ret self ->
  args = [] /\ kwargs = []
  /\ num_val (log_level self)
     = getattr settings "REQUEST_LOGGING_DATA_LOG_LEVEL" (PyInt logging.DEBUG)
  /\ (exists n : Z, In n accepted_levels /\ eq_int (num_val (log_level self)) n = true)
  /\ getattr settings "REQUEST_LOGGING_MAX_BODY_LENGTH" (PyInt 50000)
     = PyInt (max_body_length self)
  /\ (logger self = LoggerObj
      \/ logger self = ColourLoggerObj (ColourLogger.__init__ cyan magenta)).
Proof.
  intros H.
  destruct args as [|a args]; [|discriminate H].
  destruct kwargs as [|k kwargs]; [|discriminate H].
  destruct (init_unfold settings) as [[_ Hinit] | (kept & Hl & Hkept & Hinit)];
    rewrite Hinit in H; [discriminate H|].
  set (flag := getattr settings "REQUEST_LOGGING_DISABLE_COLORIZE" _) in *.
  set (limit := getattr settings "REQUEST_LOGGING_MAX_BODY_LENGTH" _) in *.
  destruct (type_is_bool flag) eqn:Hf; [|discriminate H].
  destruct (type_is_int limit) eqn:Hm; [|discriminate H].
  simpl in H. injection H as <-. simpl.
  split; [reflexivity|]. split; [reflexivity|]. split; [exact Hkept|].
  split; [|split].
  - rewrite Hkept. exact (proj1 (in_ints_true _ _) Hl).
  - destruct limit; try discriminate Hm. reflexivity.
  - destruct flag as [ | [|] | | | | | | ]; try discriminate Hf; auto.
Qed.

Lemma init_instance_invariant_witness :
  num_val (log_level default_middleware) = PyInt logging.DEBUG
  /\ logger default_middleware = ColourLoggerObj (ColourLogger.__init__ cyan magenta).
Proof.
  assert (Hbuilt : __init__ [] [] (∅ : gmap string pyval) = ret default_middleware)
    by reflexivity.
  destruct (init_instance_invariant [] [] ∅ default_middleware Hbuilt)
    as (_ & _ & Hlevel & _ & _ & _).
  split; [exact Hlevel | reflexivity].
Defined.

(** X3.  The setting named [REQUEST_LOGGING_DISABLE_COLORIZE] is read as the
    flag that enables colour: [True] selects the [ColourLogger] with cyan
    and magenta, [False] the plain [Logger]. *)
Theorem init_colour_flag (b : bool) (settings : gmap string pyval) :
  in_ints (getattr settings "REQUEST_LOGGING_DATA_LOG_LEVEL" (PyInt logging.DEBUG))
    accepted_levels = true ->
  type_is_int (getattr settings "REQUEST_LOGGING_MAX_BODY_LENGTH" (PyInt 50000)) = true ->
  exists self : t,
    __init__ [] [] (<["REQUEST_LOGGING_DISABLE_COLORIZE" := PyBool b]> settings) = ret self
    /\ logger self = if b then ColourLoggerObj (ColourLogger.__init__ cyan magenta)
                     else LoggerObj.
Proof.
  intros Hl Hm.
  destruct (init_unfold (<["REQUEST_LOGGING_DISABLE_COLORIZE" := PyBool b]> settings))
    as [[Hno _] | (kept & _ & _ & ->)].
  - rewrite getattr_insert_ne in Hno by discriminate. congruence.
  - rewrite getattr_insert_eq, !getattr_insert_ne by discriminate.
    rewrite Hm. simpl. eexists. split; [reflexivity|]. now destruct b.
Qed.

Lemma init_colour_flag_witness :
  (exists self : t,
     __init__ [] [] (<["REQUEST_LOGGING_DISABLE_COLORIZE" := PyBool true]> ∅) = ret self
     /\ logger self = ColourLoggerObj (ColourLogger.__init__ cyan magenta))
  /\ (exists self : t,
        __init__ [] [] (<["REQUEST_LOGGING_DISABLE_COLORIZE" := PyBool false]> ∅) = ret self
        /\ logger self = LoggerObj).
Proof.
  split.
  - apply (init_colour_flag true ∅); reflexivity.
  - apply (init_colour_flag false ∅); reflexivity.
Defined.

(** X4.  The colour flag is checked by exact type, after the level and
    before the limit: with an accepted level, a flag that is not a [bool],
    the integers 0 and 1 included, raises the [ValueError] about the colour
    setting, whatever the limit setting is. *)
Theorem init_flag_not_bool (v : pyval) (settings : gmap string pyval) :
  type_is_bool v = false ->
  in_ints (getattr settings "REQUEST_LOGGING_DATA_LOG_LEVEL" (PyInt logging.DEBUG))
    accepted_levels = true ->
  __init__ [] [] (<["REQUEST_LOGGING_DISABLE_COLORIZE" := v]> settings)
  = raise (ValueError ("REQUEST_LOGGING_DISABLE_COLORIZE should be boolean. "
                       +:+ py_str v +:+ " is not boolean.")).
Proof.
  intros Hv Hl.
  destruct (init_unfold (<["REQUEST_LOGGING_DISABLE_COLORIZE" := v]> settings))
    as [[Hno _] | (kept & _ & _ & ->)].
  - rewrite getattr_insert_ne in Hno by discriminate. congruence.
  - rewrite getattr_insert_eq. now rewrite Hv.
Qed.

Lemma init_flag_not_bool_witness :
  __init__ [] [] (<["REQUEST_LOGGING_DISABLE_COLORIZE" := PyInt 1]>
                  (<["REQUEST_LOGGING_MAX_BODY_LENGTH" := PyNone]> ∅))
  = raise (ValueError "REQUEST_LOGGING_DISABLE_COLORIZE should be boolean. 1 is not boolean.").
Proof.
  apply (init_flag_not_bool (PyInt 1) (<["REQUEST_LOGGING_MAX_BODY_LENGTH" := PyNone]> ∅));
    reflexivity.
Defined.

(** X5.  The body limit is checked by exact type, last: with an accepted
    level and a [bool] flag, a limit that is not an [int], [True] and
    [False] included, raises the [ValueError] about the limit setting. *)
Theorem init_limit_not_int (v : pyval) (settings : gmap string pyval) :
  type_is_int v = false ->
  in_ints (getattr settings "REQUEST_LOGGING_DATA_LOG_LEVEL" (PyInt logging.DEBUG))
    accepted_levels = true ->
  type_is_bool (getattr settings "REQUEST_LOGGING_DISABLE_COLORIZE" (PyBool true)) = true ->
  __init__ [] [] (<["REQUEST_LOGGING_MAX_BODY_LENGTH" := v]> settings)
  = raise (ValueError ("REQUEST_LOGGING_MAX_BODY_LENGTH should be int. "
                       +:+ py_str v +:+ " is not int.")).
Proof.
  intros Hv Hl Hf.
  destruct (init_unfold (<["REQUEST_LOGGING_MAX_BODY_LENGTH" := v]> settings))
    as [[Hno _] | (kept & _ & _ & ->)].
  - rewrite getattr_insert_ne in Hno by discriminate. congruence.
  - rewrite getattr_insert_eq, !getattr_insert_ne by discriminate.
    now rewrite Hf, Hv.
Qed.

Lemma init_limit_not_int_witness :
  __init__ [] [] (<["REQUEST_LOGGING_MAX_BODY_LENGTH" := PyBool true]> ∅)
  = raise (ValueError "REQUEST_LOGGING_MAX_BODY_LENGTH should be int. True is not int.").
Proof.
  apply (init_limit_not_int (PyBool true) ∅); reflexivity.
Defined.

(** ** Truncation: size of what is logged, and applying it twice *)

Lemma length_hex_escape (n : N) : String.length (hex_escape n) = 4%nat.
Proof. reflexivity. Qed.

Lemma length_escape_byte (q c : ascii) : (String.length (escape_byte q c) <= 4)%nat.
Proof.
  unfold escape_byte.
  repeat match goal with
         | |- context [if ?b then _ else _] => destruct b
         end; simpl; lia.
Qed.

Lemma length_escape_all (esc : ascii -> string) (s : string) :
  (forall c : ascii, (String.length (esc c) <= 4)%nat) ->
  (String.length (escape_all esc s) <= 4 * String.length s)%nat.
Proof.
  intros Hesc. induction s as [|c s IH]; simpl; [lia|].
  rewrite length_append. specialize (Hesc c). lia.
Qed.

Lemma length_text_of_bytes (b : list byte) :
  String.length (text_of_bytes b) = List.length b.
Proof.
  unfold text_of_bytes, string_of_list_byte.
  induction b as [|x b IH]; simpl; [reflexivity | now rewrite IH].
Qed.

(** [repr] of [n] bytes has at most [4 * n + 3] units: four per byte, the
    letter b and two quotes. *)
Lemma length_bytes_repr (b : list byte) :
  (String.length (bytes_repr b) <= 4 * List.length b + 3)%nat.
Proof.
  unfold bytes_repr.
  pose proof (length_text_of_bytes b) as Hlen.
  set (txt := text_of_bytes b) in *. set (q := pick_quote txt).
  pose proof (length_escape_all (escape_byte q) txt (length_escape_byte q)) as H.
  cbn [String.length]. rewrite length_append. cbn [String.length chr]. lia.
Qed.

Lemma substring0_append (a b : string) :
  substring 0 (String.length a) (a +:+ b) = a.
Proof.
  induction a as [|c a IH]; simpl.
  - now destruct b.
  - now rewrite IH.
Qed.

(** X7.  On a [str] message and with a limit [N >= 0] truncation is
    idempotent: the text it returns is left as it is by a second pass. *)
Theorem chunked_to_max_idempotent (self : t) (s : string) :
  0 <= max_body_length self ->
  _chunked_to_max self (_chunked_to_max self (MStr s)) = _chunked_to_max self (MStr s).
Proof.
  intros HN.
  destruct (Z.le_gt_cases (len (MStr s)) (max_body_length self)) as [Hin|Hout].
  - rewrite (chunked_within self (MStr s) Hin). exact (chunked_within self (MStr s) Hin).
  - rewrite (chunked_beyond self (MStr s)) by lia.
    simpl in Hout. simpl slice_to. rewrite slice_stop_nonneg by lia. simpl.
    set (pre := substring 0 (Z.to_nat (max_body_length self)) s).
    assert (Hpre : String.length pre = Z.to_nat (max_body_length self)).
    { subst pre. rewrite length_substring0. lia. }
    rewrite chunked_beyond.
    + simpl. rewrite slice_stop_nonneg;
        [| lia | rewrite length_append, Hpre, length_marker; lia].
      now rewrite <- Hpre, substring0_append.
    + simpl. rewrite length_append, Hpre, length_marker. lia.
Qed.

Lemma chunked_to_max_idempotent_witness :
  _chunked_to_max (with_limit 3) (_chunked_to_max (with_limit 3) (MStr "hello"))
  = _chunked_to_max (with_limit 3) (MStr "hello").
Proof.
  apply (chunked_to_max_idempotent (with_limit 3) "hello"). discriminate.
Defined.

(** ** The hooks: what reaches the sink *)

(** What [process_request] adds to the sink. *)
Lemma process_request_written (self : t) (request : HttpRequest.t) (s : sink) :
  let level := log_level self in
  let headers := List.filter (fun kv => String.prefix "HTTP_" (fst kv))
                   (HttpRequest.META request) in
  process_request self request s
  = (s ++ (NInt logging.INFO,
           tagged (logger self) false
             (HttpRequest.method request +:+ " " +:+ HttpRequest.get_full_path request))
       :: (match headers with
           | [] => []
           | _ :: _ =>
               [(level, tagged (logger self) (num_ge level logging.ERROR)
                          (py_str (PyDict (List.map (fun kv => (PyStr (fst kv), snd kv))
                                             headers))))]
           end
           ++ if len (HttpRequest.body request) =? 0 then []
              else [(level, tagged (logger self) (num_ge level logging.ERROR)
                              (py_str (msg_val (_chunked_to_max self
                                                  (HttpRequest.body request)))))]))%list.
Proof.
  intros level headers. unfold process_request. fold headers level.
  rewrite call_log_tagged. change (num_ge (NInt logging.INFO) logging.ERROR) with false.
  destruct headers as [|h hs]; destruct (len (HttpRequest.body request) =? 0);
    rewrite ?call_log_tagged, <- ?app_assoc; reflexivity.
Qed.

(** The text of a truncated body, before a sink adapter tags it. *)
Lemma body_text_length (self : t) (msg : message) :
  0 <= max_body_length self ->
  let text := py_str (msg_val (_chunked_to_max self msg)) in
  match msg with
  | MStr _ => Z.of_nat (String.length text) <= max_body_length self + 5
  | MBytes _ => Z.of_nat (String.length text) <= 4 * max_body_length self + 8
  end.
Proof.
  intros HN text. subst text.
  destruct (Z.le_gt_cases (len msg) (max_body_length self)) as [Hin|Hout].
  - rewrite chunked_within by exact Hin.
    destruct msg as [s|b]; cbn [len] in Hin.
    + cbn [msg_val py_str]. lia.
    + change (py_str (msg_val (MBytes b))) with (bytes_repr b).
      pose proof (length_bytes_repr b). lia.
  - rewrite chunked_beyond by lia.
    cbn [msg_val py_str]. rewrite length_append, length_marker.
    destruct msg as [s|b]; cbn [len] in Hout; cbn [slice_to];
      rewrite slice_stop_nonneg by lia.
    + cbn [msg_val py_str]. rewrite length_substring0. lia.
    + pose proof (length_bytes_repr (firstn (Z.to_nat (max_body_length self)) b)) as H.
      rewrite length_firstn in H.
      change (py_str (msg_val (MBytes (firstn (Z.to_nat (max_body_length self)) b))))
        with (bytes_repr (firstn (Z.to_nat (max_body_length self)) b)).
      lia.
Qed.


Lemma length_colorize (text : string) (c : colour) :
  String.length (colorize text c) = (String.length text + 9)%nat.
Proof.
  destruct c; unfold colorize; cbn [foreground color_index int_repr];
    simpl; rewrite !length_append; simpl; lia.
Qed.

Lemma length_tagged (lg : logger_obj) (error_tag : bool) (text : string) :
  String.length (tagged lg error_tag text)
  = (String.length text + match lg with LoggerObj => 0 | ColourLoggerObj _ => 9 end)%nat.
Proof.
  destruct lg as [|self]; simpl; [lia | apply length_colorize].
Qed.



(** X8.  The request hook only appends to the sink, and what it appends does
    not depend on what the sink held: one record at the level INFO, followed
    by at most two records, each at the configured level. *)
Theorem process_request_frame (self : t) (request : HttpRequest.t) (s : sink) :
  process_request self request s = (s ++ process_request self request [])%list
  /\ exists (text : string) (details : sink),
       process_request self request [] = (NInt logging.INFO, text) :: details
       /\ (List.length details <= 2)%nat
       /\ Forall (fun record => fst record = log_level self) details.
Proof.
  rewrite (process_request_written self request s),
    (process_request_written self request []).
  split; [reflexivity|].
  eexists; eexists. split; [reflexivity|].
  destruct (List.filter _ _); destruct (len (HttpRequest.body request) =? 0);
    simpl; split; try lia; repeat constructor.
Qed.

(** X9.  A response without a content-type header gets no detail lines: the
    response hook writes the status line and nothing else, whatever the
    status code is. *)
Theorem process_response_no_content_type (self : t) (request : HttpRequest.t)
    (response : HttpResponse.t) (s : sink) :
  HttpResponse.lookup_header "content-type" (HttpResponse._headers response) = None ->
  snd (process_response self request response s)
  = (s ++ [(NInt logging.INFO,
            tagged (logger self) (in_range_400_600 (HttpResponse.status_code response))
              (HttpRequest.method request +:+ " " +:+ HttpRequest.get_full_path request
               +:+ " - " +:+ int_repr (HttpResponse.status_code response)))])%list.
Proof.
  intros Hmissing. rewrite process_response_trace. simpl snd.
  unfold HttpResponse.get.
  change (HttpResponse.lower "Content-Type") with "content-type".
  rewrite Hmissing. reflexivity.
Qed.

Lemma process_response_no_content_type_witness :
  snd (process_response default_middleware request_get
         {| HttpResponse.status_code := 500;
            HttpResponse._headers := [("x-frame-options", ("X-Frame-Options", "DENY"))];
            HttpResponse.content := MBytes (list_byte_of_string json_e1) |} [])
  = [(NInt logging.INFO, colorize "GET /x?y=1 - 500" magenta)].
Proof.
  etransitivity.
  - apply (process_response_no_content_type default_middleware request_get
             {| HttpResponse.status_code := 500;
                HttpResponse._headers := [("x-frame-options", ("X-Frame-Options", "DENY"))];
                HttpResponse.content := MBytes (list_byte_of_string json_e1) |} []).
    reflexivity.
  - reflexivity.
Defined.


Lemma lower_append (a b : string) :
  HttpResponse.lower (a +:+ b) = HttpResponse.lower a +:+ HttpResponse.lower b.
Proof. induction a as [|c a IH]; simpl; [reflexivity | now rewrite IH]. Qed.

Lemma prefix_append (a b : string) : String.prefix a (a +:+ b) = true.
Proof.
  induction a as [|c a IH]; simpl.
  - now destruct b.
  - destruct (ascii_dec c c); [exact IH | contradiction].
Qed.

(** A lower-cased text starts with a pattern exactly when the text splits
    into a head that lower-cases to the pattern and a rest. *)
Lemma prefix_lower_split (pat text : string) :
  String.prefix pat (HttpResponse.lower text) = true
  <-> exists head rest : string, text = head +:+ rest /\ HttpResponse.lower head = pat.
Proof.
  split.
  - revert pat; induction text as [|c text IH]; intros [|p pat] H; simpl in H.
    + exists EmptyString, EmptyString. split; reflexivity.
    + discriminate H.
    + exists EmptyString, (String c text). split; reflexivity.
    + destruct (ascii_dec p (HttpResponse.lower_char c)) as [->|]; [|discriminate H].
      destruct (IH pat H) as (head & rest & -> & <-).
      exists (String c head), rest. split; reflexivity.
  - intros (head & rest & -> & <-). rewrite lower_append. apply prefix_append.
Qed.



(** ** The two sink adapters side by side *)

(** X12.  The forced path [log_error] and the normal path [log] write the
    same record exactly when the logger is a plain [Logger], or the level is
    at least ERROR, or the two colours of the [ColourLogger] are the
    same. *)
Theorem log_error_same_as_log (lg : logger_obj) (level : number) (msg : pyval) (s : sink) :
  call_log_error lg level msg s = call_log lg level msg s
  <-> (lg = LoggerObj
       \/ num_ge level logging.ERROR = true
       \/ exists self : ColourLogger.t,
            lg = ColourLoggerObj self
            /\ ColourLogger.log_colour self = ColourLogger.log_error_colour self).
Proof.
  rewrite call_log_error_tagged, call_log_tagged. split.
  - intros H. apply app_inv_head in H.
    destruct lg as [|self]; [left; reflexivity|]. right.
    destruct (num_ge level logging.ERROR) eqn:Hge; [left; reflexivity|]. right.
    exists self. split; [reflexivity|].
    assert (Hc : colorize (py_str msg) (ColourLogger.log_error_colour self)
                 = colorize (py_str msg) (ColourLogger.log_colour self))
      by (simpl in H; congruence).
    symmetry. exact (colorize_inj _ _ _ Hc).
  - intros [-> | [Hge | (self & -> & Hsame)]].
    + reflexivity.
    + now rewrite Hge.
    + simpl. rewrite Hsame. now destruct (num_ge level logging.ERROR).
Qed.


